(** * a11y-tracker-client: the reporter, its transport and the Cypress command

    A shallow embedding of the client library (the tracker-era source with
    [trackerURI], [revision], [project] and [key], and, where it differs,
    the older [src/index.js]) together with the properties its
    specification states about it. *)

From Stdlib Require Import ZArith Lia Ascii.
From stdpp Require Import base strings pretty gmap.

Local Open Scope Z_scope.

(** ** JavaScript values

    The configuration fields, the uri handed to [post] and the arguments of
    the utility functions are JavaScript primitives; arrays and other
    objects are not values here.  Numbers are [NaN] and the safe integers,
    those of magnitude below 2^53: [Int z] stands for such a [z].  Every
    number the program computes with (an array length, an HTTP status, the
    literals 0, 1, 2 and 100) is one, and a safe integer prints as its
    plain decimal digits; a larger number, which JavaScript may print
    rounded or in exponent notation, has no counterpart in the model. *)

Inductive number : Type :=
  | NaN
  | Int (z : Z).

Inductive value : Type :=
  | Undefined
  | Null
  | Bool (b : bool)
  | Num (n : number)
  | Str (s : string).

(** [!!v]: everything is truthy except [undefined], [null], [false], [0],
    [NaN] and the empty string. *)
Definition ToBoolean (v : value) : bool :=
  match v with
  | Undefined | Null => false
  | Bool b => b
  | Num NaN => false
  | Num (Int z) => negb (z =? 0)
  | Str EmptyString => false
  | Str (String _ _) => true
  end.

(** What a template literal [`${v}`] puts in place of [v]; on numbers, for
    the safe integers the model has. *)
Definition ToString (v : value) : string :=
  match v with
  | Undefined => "undefined"
  | Null => "null"
  | Bool true => "true"
  | Bool false => "false"
  | Num NaN => "NaN"
  | Num (Int z) => pretty z
  | Str s => s
  end.

(** [a === b] on primitives: same type and same value, and [NaN] differs
    from itself. *)
Definition strict_eq (a b : value) : bool :=
  match a, b with
  | Undefined, Undefined => true
  | Null, Null => true
  | Bool x, Bool y => Bool.eqb x y
  | Num (Int x), Num (Int y) => x =? y
  | Str x, Str y => String.eqb x y
  | _, _ => false
  end.

(** [a || b] yields [a] when it is truthy and [b] otherwise. *)
Definition js_or (a b : value) : value :=
  if ToBoolean a then a else b.

(** An array length or an HTTP status as a JavaScript number. *)
Definition of_nat (n : nat) : value := Num (Int (Z.of_nat n)).

(** ** Strings *)

(** [s[i]]: the one-character string at index [i], [undefined] out of
    range. *)
Definition char_at (s : string) (i : Z) : value :=
  if i <? 0 then Undefined
  else match String.get (Z.to_nat i) s with
       | Some c => Str (String c EmptyString)
       | None => Undefined
       end.

(** [s.slice(start, end)]: negative indices count from the end, and both
    are clamped to the string. *)
Definition slice (s : string) (start end_ : Z) : string :=
  let len := Z.of_nat (String.length s) in
  let from := if start <? 0 then Z.max (len + start) 0 else Z.min start len in
  let to := if end_ <? 0 then Z.max (len + end_) 0 else Z.min end_ len in
  let span := Z.max (to - from) 0 in
  String.substring (Z.to_nat from) (Z.to_nat span) s.

(** ** Utility functions *)

(** [chomp(str, ch)]: chomp off a trailing character if it is at the end.
    A truthy boolean or number has no [length], so [str[str.length - 1]] is
    [undefined] there and never [=== ch]. *)
Definition chomp (str : value) (ch : string) : value :=
  if negb (ToBoolean str) then str
  else match str with
       | Str s =>
           if strict_eq (char_at s (Z.of_nat (String.length s) - 1)) (Str ch)
           then Str (slice s 0 (-1))
           else str
       | _ => str
       end.

(** [plural(num, single, multiple)]: an omitted [multiple] is
    [undefined]. *)
Definition plural (num single multiple : value) : value :=
  let multiple :=
    if negb (ToBoolean multiple) then Str (ToString single +:+ "s")
    else multiple in
  if strict_eq num (Num (Int 1)) then single else multiple.

(** ** Transport

    [post] builds a promise.  Its executor runs at once: it either logs and
    resolves, or opens the request and leaves the promise to the [onload]
    handler.  The embedding returns what the executor did, in order, and the
    state it leaves the promise in. *)

(** The request object as the load handler finds it.  An XMLHttpRequest
    carries the status and the response text. *)
Record XHR : Type := { status : Z; responseText : string }.

(** [xhr.body]: a request object has no property of this name (what the
    server answered is in [responseText]), so the read gives [undefined]. *)
Definition body (xhr : XHR) : value := Undefined.

(** What the promise is resolved with: the literal [{}] or [xhr.body]. *)
Inductive resolved : Type :=
  | EmptyObject
  | Body (b : value).

Inductive settlement : Type :=
  | Resolve (v : resolved)
  | Reject (xhr : XHR).

Inductive promise : Type :=
  | Settled (s : settlement)
  | Pending (onload : XHR -> settlement).

(** An argument of [console.warn]. *)
Inductive logged (D : Type) : Type :=
  | text (s : string)
  | object (d : D).
Arguments text {D} s.
Arguments object {D} d.

Inductive effect (D : Type) : Type :=
  | console_warn (arg : logged D)
  | new_XHR
  | xhr_open (method : string) (uri : value) (async : bool)
  | xhr_setRequestHeader (header content : string)
  | xhr_send (payload : string).
Arguments console_warn {D} arg.
Arguments new_XHR {D}.
Arguments xhr_open {D} method uri async.
Arguments xhr_setRequestHeader {D} header content.
Arguments xhr_send {D} payload.

Definition is_network {D : Type} (e : effect D) : bool :=
  match e with
  | console_warn _ => false
  | _ => true
  end.

Definition is_warning {D : Type} (e : effect D) : bool :=
  match e with
  | console_warn _ => true
  | _ => false
  end.

(** [Math.floor(a / b)] on integers. *)
Definition Math_floor_div (a b : Z) : Z := a / b.

Section Transport.
Context {D : Type}.
Variable JSON_stringify : D -> string.

Definition onload (xhr : XHR) : settlement :=
  (* check for 2xx *)
  if Math_floor_div (status xhr) 100 =? 2 then Resolve (Body (body xhr))
  else Reject xhr.

Definition post (uri : value) (data : D) : list (effect D) * promise :=
  if negb (ToBoolean uri) then
    ([console_warn (text "a11y-tracker URI is blank. would have posted:");
      console_warn (object data)],
     Settled (Resolve EmptyObject))
  else
    ([new_XHR;
      xhr_open "POST" uri true;
      xhr_setRequestHeader "content-type" "application/json";
      xhr_send (JSON_stringify data)],
     Pending onload).
End Transport.

(** ** Scan results *)

Record Violation (Node : Type) : Type :=
  { violation_id : value; impact : value; nodes : list Node }.
Arguments violation_id {Node} _.
Arguments impact {Node} _.
Arguments nodes {Node} _.

(** Of an axe result the client reads the violations only. *)
Record ScanResult (Node : Type) : Type :=
  { violations : list (Violation Node) }.
Arguments violations {Node} _.

(** ** Reporter *)

(** A property of an object literal: an object passed as [opts] is a finite
    map from property names to values, and reading a missing property gives
    [undefined]. *)
Definition prop (o : gmap string value) (k : string) : value :=
  default Undefined (o !! k).

(** The static properties of the class: the Global Configuration State. *)
Record GlobalConfig : Type :=
  { global_trackerURI : value;
    global_revision : value;
    global_project : value;
    global_key : value }.

(** Nothing is configured when the module is loaded. *)
Definition initial : GlobalConfig :=
  {| global_trackerURI := Undefined; global_revision := Undefined;
     global_project := Undefined; global_key := Undefined |}.

Record Reporter : Type :=
  { page : value;
    scanName : value;
    revision : value;
    project : value;
    key : value;
    trackerURI : value }.

(** [new A11yReporter(page, scanName, opts={})] under the statics [G]. *)
Definition new_A11yReporter (G : GlobalConfig) (page scanName : value)
    (opts : option (gmap string value)) : Reporter :=
  let opts := default ∅ opts in
  {| page := page;
     scanName := scanName;
     revision := js_or (prop opts "revision") (global_revision G);
     project := js_or (prop opts "project") (global_project G);
     key := js_or (prop opts "key") (global_key G);
     trackerURI :=
       chomp (js_or (prop opts "trackerURI") (global_trackerURI G)) "/" |}.

(** [get scanURI()] *)
Definition scanURI (this : Reporter) : value :=
  if negb (ToBoolean (trackerURI this)) then Undefined
  else Str (ToString (trackerURI this) +:+ "/api/v1/scans").

(** A field of the payload: a configuration value or the scan result. *)
Inductive field (Node : Type) : Type :=
  | Prim (v : value)
  | Result (r : ScanResult Node).
Arguments Prim {Node} v.
Arguments Result {Node} r.

(** The object literal handed to [post], as its properties in order. *)
Abbreviation ReportPayload Node := (list (string * field Node)).

Section Report.
Context {Node : Type}.
Variable JSON_stringify : ReportPayload Node -> string.

(** [async report(axeResult)]: the promise it returns settles as the one
    of [post] does. *)
Definition report (this : Reporter) (axeResult : ScanResult Node)
    : list (effect (ReportPayload Node)) * promise :=
  post JSON_stringify (scanURI this)
    [("revision", Prim (revision this));
     ("scan_name", Prim (scanName this));
     ("project_name", Prim (project this));
     ("key", Prim (key this));
     ("result", Result axeResult)].
End Report.

(** [A11yReporter.configure(opts)]: four assignments, each under its own
    guard. *)
Definition configure (G : GlobalConfig) (opts : gmap string value)
    : GlobalConfig :=
  let G :=
    if ToBoolean (prop opts "trackerURI")
    then {| global_trackerURI := prop opts "trackerURI";
            global_revision := global_revision G;
            global_project := global_project G;
            global_key := global_key G |}
    else G in
  let G :=
    if ToBoolean (prop opts "revision")
    then {| global_trackerURI := global_trackerURI G;
            global_revision := prop opts "revision";
            global_project := global_project G;
            global_key := global_key G |}
    else G in
  let G :=
    if ToBoolean (prop opts "project")
    then {| global_trackerURI := global_trackerURI G;
            global_revision := global_revision G;
            global_project := prop opts "project";
            global_key := global_key G |}
    else G in
  if ToBoolean (prop opts "key")
  then {| global_trackerURI := global_trackerURI G;
          global_revision := global_revision G;
          global_project := global_project G;
          global_key := prop opts "key" |}
  else G.

(** ** The Cypress command

    [reportA11y] chains three stages.  The first builds the reporter and
    runs axe; the scan result it waits for is an input here. *)

Record LogEntry (Node : Type) : Type :=
  { name : string; consoleProps : Violation Node; message : string }.
Arguments name {Node} _.
Arguments consoleProps {Node} _.
Arguments message {Node} _.

(** What the second stage does, in order: the transport's effects and the
    calls of [Cypress.log]. *)
Inductive event (Node : Type) : Type :=
  | transport (e : effect (ReportPayload Node))
  | Cypress_log (entry : LogEntry Node).
Arguments transport {Node} e.
Arguments Cypress_log {Node} entry.

Definition logs_of {Node : Type} (events : list (event Node))
    : list (LogEntry Node) :=
  omap (fun e => match e with
                 | Cypress_log entry => Some entry
                 | transport _ => None
                 end) events.

(** The outcome of [assert.equal(actual, expected, message)] on numbers: it
    throws an error carrying [message] unless the two are equal. *)
Inductive assertion : Type :=
  | passes
  | AssertionError (message : string).

Definition assert_equal (actual expected : Z) (message : string) : assertion :=
  if actual =? expected then passes else AssertionError message.

(** The body of the [forEach] callback. *)
Definition log_violation {Node : Type} (violation : Violation Node)
    : LogEntry Node :=
  let numNodes := length (nodes violation) in
  let nodeCount :=
    if strict_eq (of_nat numNodes) (Num (Int 1)) then ""
    else " (" +:+ ToString (of_nat numNodes) +:+ ")" in
  let message := ToString (violation_id violation) +:+ nodeCount in
  {| name := "a11y/" +:+ ToString (impact violation);
     consoleProps := violation;
     message := message |}.

Section ReportA11y.
Context {Node : Type}.
Variable JSON_stringify : ReportPayload Node -> string.

(** First stage, up to the scan: [href] is [win.location.href] and
    [testName] what [getTestNameFromMocha] returns. *)
Definition acquire_stage (G : GlobalConfig) (opts : gmap string value)
    (href testName : value) : Reporter :=
  let page := js_or (prop opts "page") href in
  let scanName := js_or (prop opts "name") testName in
  new_A11yReporter G page scanName None.

(** Second stage: start the report, log the violations, hand back the
    report promise. *)
Definition report_stage (reporter : Reporter) (result : ScanResult Node)
    : list (event Node) * promise :=
  let reportPromise := report JSON_stringify reporter result in
  (map transport (fst reportPromise)
     ++ map (fun violation => Cypress_log (log_violation violation))
          (violations result),
   snd reportPromise).

(** Third stage: assert that there are no violations. *)
Definition assert_stage (result : ScanResult Node) : assertion :=
  let n := length (violations result) in
  assert_equal (Z.of_nat n) 0
    ("a11y: " +:+ ToString (of_nat n) +:+ " "
       +:+ ToString (plural (of_nat n) (Str "violation") Undefined) +:+ " "
       +:+ ToString (plural (of_nat n) (Str "was") (Str "were"))
       +:+ " detected").

(** How the command ends once the report promise has settled: a rejection
    ends it before the assertion. *)
Inductive outcome : Type :=
  | report_rejected (xhr : XHR)
  | asserted (a : assertion).

Definition settle_stage (s : settlement) (result : ScanResult Node)
    : outcome :=
  match s with
  | Resolve _ => asserted (assert_stage result)
  | Reject xhr => report_rejected xhr
  end.
End ReportA11y.

(** The assertion stage of [src/index.js], whose [chomp], [plural] and
    [post] are those above word for word. *)
Module IndexJs.
Definition assert_stage {Node : Type} (result : ScanResult Node)
    : assertion :=
  let n := length (violations result) in
  assert_equal (Z.of_nat n) 0
    (ToString (of_nat n) +:+ " "
       +:+ ToString (plural (of_nat n) (Str "violation") Undefined) +:+ " "
       +:+ ToString (plural (of_nat n) (Str "was") (Str "were"))
       +:+ " detected").
End IndexJs.

(** A suffix test that does not go through indices: some tail of [s] is
    [suffix]. *)
Fixpoint ends_with (suffix s : string) : bool :=
  String.eqb s suffix
  || match s with
     | EmptyString => false
     | String _ s' => ends_with suffix s'
     end.

(** A configured tracker URI is tidy when it is falsy or a string that does
    not end in two slashes. *)
Definition tidy (configured : value) : bool :=
  match configured with
  | Str s => negb (ends_with "//" s)
  | v => negb (ToBoolean v)
  end.

(** The scan result of the specification's second scenario. *)
Definition two_violations : ScanResult unit :=
  {| violations :=
       [ {| violation_id := Str "color-contrast"; impact := Str "serious";
            nodes := [tt; tt; tt] |};
         {| violation_id := Str "image-alt"; impact := Str "critical";
            nodes := [tt] |} ] |}.

(** ** The qualified test name *)

(** A Mocha runnable (a test, a hook or a suite): its title and the suite
    it sits in, if any. *)
#[warnings="-register-all"]
Inductive Runnable : Type :=
  | runnable (title : value) (parent : option Runnable).

(** How [array.join] prints an element: [undefined] and [null] as the empty
    string. *)
Definition join_element (v : value) : string :=
  match v with
  | Undefined | Null => ""
  | v => ToString v
  end.

(** [array.join(separator)] *)
Fixpoint Array_join (separator : string) (array : list value) : string :=
  match array with
  | [] => ""
  | v :: rest =>
      match rest with
      | [] => join_element v
      | _ => join_element v +:+ separator +:+ Array_join separator rest
      end
  end.

(** The [while] loop of [getTestNameFromMocha] from [runner] on: [out] once
    the walk has run off the top of the chain. *)
Fixpoint walk (runner : Runnable) (out : list value) : list value :=
  match runner with
  | runnable title parent =>
      let out := if ToBoolean title then out ++ [title] else out in
      match parent with
      | Some runner => walk runner out
      | None => out
      end
  end.

(** [getTestNameFromMocha(mocha)], given [mocha.getRunner().currentRunnable]. *)
Definition getTestNameFromMocha (currentRunnable : option Runnable)
    : string :=
  let out :=
    match currentRunnable with
    | Some runner => walk runner []
    | None => []
    end in
  Array_join "::" out.

(** Whether some runnable from [runner] upwards has a truthy title. *)
Fixpoint titled (runner : Runnable) : bool :=
  match runner with
  | runnable title parent =>
      ToBoolean title
      || match parent with
         | Some runner => titled runner
         | None => false
         end
  end.

(** ** The command as a whole *)

(** How a run of the command ends: the third stage runs after the report
    promise, which stays pending for as long as the request has not
    loaded. *)
Inductive ending : Type :=
  | unsettled
  | ended (o : outcome).

(** [reportA11y(context, opts={})] on the scan result axe returns; [loaded]
    is the request as the load event finds it, if the event fires. *)
Definition reportA11y {Node : Type}
    (JSON_stringify : ReportPayload Node -> string) (G : GlobalConfig)
    (context : value) (opts : option (gmap string value))
    (href testName : value) (result : ScanResult Node)
    (loaded : option XHR) : list (event Node) * ending :=
  let opts := default ∅ opts in
  let reporter := acquire_stage G opts href testName in
  let stage := report_stage JSON_stringify reporter result in
  (fst stage,
   match snd stage with
   | Settled s => ended (settle_stage s result)
   | Pending onload =>
       match loaded with
       | Some xhr => ended (settle_stage (onload xhr) result)
       | None => unsettled
       end
   end).

(** ** The reporter of [src/index.js]

    The older source configures a [baseURI] and a [runId], and reports the
    page as well. *)
Module IndexJsReporter.

Record GlobalConfig : Type :=
  { global_baseURI : value;
    global_runId : value }.

Record Reporter : Type :=
  { page : value;
    scanName : value;
    runId : value;
    baseURI : value }.

Definition new_A11yReporter (G : GlobalConfig) (page scanName : value)
    (opts : option (gmap string value)) : Reporter :=
  let opts := default ∅ opts in
  {| page := page;
     scanName := scanName;
     runId := js_or (prop opts "runId") (global_runId G);
     baseURI := chomp (js_or (prop opts "baseURI") (global_baseURI G)) "/" |}.

Definition scanURI (this : Reporter) : value :=
  if negb (ToBoolean (baseURI this)) then Undefined
  else Str (ToString (baseURI this) +:+ "/scans").

Definition report {Node : Type}
    (JSON_stringify : ReportPayload Node -> string)
    (this : Reporter) (axeResult : ScanResult Node)
    : list (effect (ReportPayload Node)) * promise :=
  post JSON_stringify (scanURI this)
    [("run_id", Prim (runId this));
     ("page", Prim (page this));
     ("name", Prim (scanName this));
     ("result", Result axeResult)].

Definition configure (G : GlobalConfig) (opts : gmap string value)
    : GlobalConfig :=
  let G :=
    if ToBoolean (prop opts "baseURI")
    then {| global_baseURI := prop opts "baseURI";
            global_runId := global_runId G |}
    else G in
  if ToBoolean (prop opts "runId")
  then {| global_baseURI := global_baseURI G;
          global_runId := prop opts "runId" |}
  else G.

Definition setupCypress (G : GlobalConfig)
    (globalOpts : option (gmap string value)) (env : gmap string value)
    : GlobalConfig :=
  let globalOpts := default ∅ globalOpts in
  configure G
    (<["baseURI" :=
         js_or (prop globalOpts "baseURI") (prop env "A11Y_REPORTER_URI")]>
     (<["runId" :=
          js_or (js_or (prop globalOpts "runId")
                   (prop env "A11Y_REPORTER_RUN_ID"))
            (prop env "GIT_HASH")]>
      ∅)).

End IndexJsReporter.

(** The string of [k] slashes. *)
Fixpoint slashes (k : nat) : string :=
  match k with
  | O => ""
  | S k => "/" +:+ slashes k
  end.

(** ** Strings: the index and slice operations on a string that ends in a
    given character *)

Lemma length_snoc (s : string) (c : ascii) :
  String.length (s +:+ String c "") = S (String.length s).
Proof. induction s as [|a s IH]; simpl; [reflexivity | now rewrite IH]. Qed.

Lemma get_snoc (s : string) (c : ascii) :
  String.get (String.length s) (s +:+ String c "") = Some c.
Proof. induction s as [|a s IH]; simpl; [reflexivity | exact IH]. Qed.

Lemma substring_snoc (s : string) (c : ascii) :
  String.substring 0 (String.length s) (s +:+ String c "") = s.
Proof. induction s as [|a s IH]; simpl; [reflexivity | now rewrite IH]. Qed.

Lemma snoc_cases (s : string) :
  s = "" \/ exists p c, s = p +:+ String c "".
Proof.
  induction s as [|a s [-> | (p & c & ->)]].
  - now left.
  - right. now exists "", a.
  - right. now exists (String a p), c.
Qed.

Lemma ToBoolean_snoc (s : string) (c : ascii) :
  ToBoolean (Str (s +:+ String c "")) = true.
Proof. now destruct s. Qed.

Lemma char_at_last (s : string) (c : ascii) :
  char_at (s +:+ String c "")
    (Z.of_nat (String.length (s +:+ String c "")) - 1)
  = Str (String c "").
Proof.
  rewrite length_snoc. unfold char_at.
  replace (Z.of_nat (S (String.length s)) - 1) with (Z.of_nat (String.length s))
    by lia.
  destruct (Z.ltb_spec (Z.of_nat (String.length s)) 0) as [Hneg | _]; [lia |].
  now rewrite Nat2Z.id, get_snoc.
Qed.

Lemma slice_drop_last (s : string) (c : ascii) :
  slice (s +:+ String c "") 0 (-1) = s.
Proof.
  unfold slice. rewrite length_snoc. cbn [Z.ltb Z.compare].
  replace (Z.min 0 (Z.of_nat (S (String.length s)))) with 0 by lia.
  replace (Z.max (Z.max (Z.of_nat (S (String.length s)) + -1) 0 - 0) 0)
    with (Z.of_nat (String.length s)) by lia.
  rewrite Nat2Z.id. apply substring_snoc.
Qed.

(** [chomp] on a string with a last character: the character goes when it
    is [ch], and only then. *)
Lemma chomp_snoc (s : string) (c : ascii) (ch : string) :
  chomp (Str (s +:+ String c "")) ch
  = if String.eqb (String c "") ch then Str s else Str (s +:+ String c "").
Proof.
  unfold chomp. rewrite ToBoolean_snoc, char_at_last, slice_drop_last.
  reflexivity.
Qed.

Lemma chomp_falsy (v : value) (ch : string) :
  ToBoolean v = false -> chomp v ch = v.
Proof. unfold chomp. now intros ->. Qed.

Lemma ends_with_spec (suffix s : string) :
  ends_with suffix s = true <-> exists p, s = p +:+ suffix.
Proof.
  induction s as [|a s IH]; cbn [ends_with].
  - rewrite orb_false_r, String.eqb_eq. split.
    + intros <-. now exists "".
    + intros [[|a p] H]; simpl in H; [assumption | discriminate].
  - rewrite orb_true_iff, IH, String.eqb_eq. split.
    + intros [<- | [p ->]]; [now exists "" | now exists (String a p)].
    + intros [[|a' p] H]; simpl in H.
      * now left.
      * right. injection H as _ ->. now exists p.
Qed.

Lemma ends_with_snoc (s : string) (c : ascii) :
  ends_with "/" (s +:+ String c "") = Ascii.eqb c "/"%char.
Proof.
  induction s as [|a s IH].
  - simpl. now destruct (Ascii.eqb c "/"%char).
  - change (ends_with "/" (String a s +:+ String c ""))
      with (String.eqb (String a (s +:+ String c "")) "/"
            || ends_with "/" (s +:+ String c "")).
    rewrite IH.
    destruct s; simpl; now destruct (Ascii.eqb a "/"%char).
Qed.

(** ** Transport: the dry run and the status check *)

Lemma floor_div_100_is_2 (s : Z) :
  Math_floor_div s 100 = 2 <-> 200 <= s < 300.
Proof.
  unfold Math_floor_div. split.
  - intros H. pose proof (Z.div_mod s 100 ltac:(lia)) as Hs.
    pose proof (Z.mod_pos_bound s 100 ltac:(lia)). lia.
  - intros H. symmetry. apply Z.div_unique with (r := s - 200); lia.
Qed.

Lemma onload_2xx (xhr : XHR) :
  200 <= status xhr < 300 -> onload xhr = Resolve (Body (body xhr)).
Proof.
  intros H. apply floor_div_100_is_2, Z.eqb_eq in H.
  unfold onload. now rewrite H.
Qed.

Lemma onload_other (xhr : XHR) :
  ~ 200 <= status xhr < 300 -> onload xhr = Reject xhr.
Proof.
  intros H. unfold onload.
  destruct (Z.eqb_spec (Math_floor_div (status xhr) 100) 2) as [E | _];
    [| reflexivity].
  now apply floor_div_100_is_2 in E.
Qed.

Lemma onload_resolves_iff (xhr : XHR) :
  onload xhr = Resolve (Body (body xhr)) <-> 200 <= status xhr < 300.
Proof.
  split; [| apply onload_2xx].
  intros H. destruct (Z_le_dec 200 (status xhr));
    [destruct (Z_lt_dec (status xhr) 300); [lia |] |];
    rewrite onload_other in H by lia; discriminate.
Qed.

Lemma onload_rejects_iff (xhr : XHR) :
  onload xhr = Reject xhr <-> ~ 200 <= status xhr < 300.
Proof.
  split; [| apply onload_other].
  intros H Hs. rewrite onload_2xx in H by exact Hs. discriminate.
Qed.

(** C2. For a falsy uri, whatever the data, [post] warns twice on the
    console, first of the blank URI and then with the data itself, returns a
    promise already resolved with the empty object, and touches the network
    at no point. *)
Theorem post_falsy_uri_is_dry_run {D : Type} (JSON_stringify : D -> string)
    (uri : value) (data : D) :
  ToBoolean uri = false ->
  post JSON_stringify uri data
  = ([console_warn (text "a11y-tracker URI is blank. would have posted:");
      console_warn (object data)],
     Settled (Resolve EmptyObject))
  /\ forallb is_warning (fst (post JSON_stringify uri data)) = true
  /\ existsb is_network (fst (post JSON_stringify uri data)) = false
  /\ (forall xhr, snd (post JSON_stringify uri data) <> Settled (Reject xhr)).
Proof.
  intros Huri. unfold post. rewrite Huri. simpl. repeat split.
  intros xhr. discriminate.
Qed.

Lemma post_falsy_uri_is_dry_run_witness :
  ToBoolean (Str "") = false
  /\ post (fun n : nat => pretty n) (Str "") 7%nat
     = ([console_warn (text "a11y-tracker URI is blank. would have posted:");
         console_warn (object 7%nat)],
        Settled (Resolve EmptyObject)).
Proof.
  split; [reflexivity |].
  apply (post_falsy_uri_is_dry_run (fun n : nat => pretty n) (Str "") 7%nat).
  reflexivity.
Defined.

(** C3. The code at the failing input.  For a truthy uri [post] issues the
    request and leaves the promise to the load handler, which decides by
    the status as claimed: it resolves exactly when [200 <= s < 300] (the
    test [floor(s / 100) = 2] is that range) and rejects with the request
    object exactly when not.  But what it resolves with is [xhr.body],
    which is [undefined] on a request object, and not the response body:
    whatever the server answered is lost. *)
Theorem post_resolves_with_undefined {D : Type} (JSON_stringify : D -> string)
    (uri : value) (data : D) :
  ToBoolean uri = true ->
  fst (post JSON_stringify uri data)
  = [new_XHR;
     xhr_open "POST" uri true;
     xhr_setRequestHeader "content-type" "application/json";
     xhr_send (JSON_stringify data)]
  /\ exists handler,
       snd (post JSON_stringify uri data) = Pending handler
       /\ forall xhr,
            (handler xhr = Resolve (Body Undefined)
             <-> 200 <= status xhr < 300)
            /\ (handler xhr = Reject xhr <-> ~ 200 <= status xhr < 300)
            /\ (Math_floor_div (status xhr) 100 = 2
                <-> 200 <= status xhr < 300)
            /\ handler xhr <> Resolve (Body (Str (responseText xhr))).
Proof.
  intros Huri. unfold post. rewrite Huri. simpl.
  split; [reflexivity |]. exists onload.
  split; [reflexivity |]. intros xhr.
  split; [apply onload_resolves_iff |].
  split; [apply onload_rejects_iff |].
  split; [apply floor_div_100_is_2 |].
  unfold onload. now destruct (Math_floor_div (status xhr) 100 =? 2).
Qed.

Lemma post_resolves_with_undefined_witness :
  ToBoolean (Str "https://api.example.com/api/v1/scans") = true
  /\ exists handler,
       snd (post (fun n : nat => pretty n)
              (Str "https://api.example.com/api/v1/scans") 7%nat)
       = Pending handler
       /\ handler {| status := 200; responseText := "created" |}
          = Resolve (Body Undefined)
       /\ handler {| status := 200; responseText := "created" |}
          <> Resolve (Body (Str "created"))
       /\ handler {| status := 404; responseText := "not found" |}
          = Reject {| status := 404; responseText := "not found" |}.
Proof.
  split; [reflexivity |].
  destruct (post_resolves_with_undefined (fun n : nat => pretty n)
              (Str "https://api.example.com/api/v1/scans") 7%nat eq_refl)
    as (_ & handler & Hp & Hh).
  exists handler. split; [exact Hp |]. split; [| split].
  - apply (Hh {| status := 200; responseText := "created" |}). simpl. lia.
  - apply (Hh {| status := 200; responseText := "created" |}).
  - apply (Hh {| status := 404; responseText := "not found" |}). simpl. lia.
Defined.

(** ** Pluralization *)

Lemma strict_eq_one (n : number) :
  strict_eq (Num n) (Num (Int 1)) = true <-> n = Int 1.
Proof.
  destruct n as [|z]; simpl; [split; discriminate |].
  rewrite Z.eqb_eq. split; congruence.
Qed.

Lemma snoc_neq (s : string) (c : ascii) : s +:+ String c "" <> s.
Proof.
  intros H. apply (f_equal String.length) in H.
  rewrite length_snoc in H. lia.
Qed.

(** The plural form [plural] falls back on when [multiple] is omitted or
    otherwise falsy. *)
Lemma plural_not_one (n : number) (single multiple : value) :
  n <> Int 1 ->
  plural (Num n) single multiple
  = if ToBoolean multiple then multiple else Str (ToString single +:+ "s").
Proof.
  intros H. unfold plural.
  destruct (strict_eq (Num n) (Num (Int 1))) eqn:E.
  - now apply strict_eq_one in E.
  - now destruct (ToBoolean multiple).
Qed.

Lemma plural_one (single multiple : value) :
  plural (Num (Int 1)) single multiple = single.
Proof. reflexivity. Qed.

(** C9. [plural(num, single, multiple)] is [single] when [num] is the
    number 1; for any other number it is [multiple] when one is supplied
    (a truthy third argument) and [single] followed by "s" when it is not.
    So with no third argument, or with one that differs from [single], the
    result is [single] exactly when [num] is 1.  The five sample calls of
    the specification come out as listed. *)
Theorem plural_spec (num : number) (single : string) (multiple : value) :
  (num = Int 1 -> plural (Num num) (Str single) multiple = Str single)
  /\ (num <> Int 1 ->
      plural (Num num) (Str single) multiple
      = if ToBoolean multiple then multiple else Str (single +:+ "s"))
  /\ (plural (Num num) (Str single) Undefined = Str single <-> num = Int 1)
  /\ (multiple <> Str single ->
      (plural (Num num) (Str single) multiple = Str single <-> num = Int 1))
  /\ plural (Num (Int 1)) (Str "violation") Undefined = Str "violation"
  /\ plural (Num (Int 0)) (Str "violation") Undefined = Str "violations"
  /\ plural (Num (Int 5)) (Str "violation") Undefined = Str "violations"
  /\ plural (Num (Int 1)) (Str "was") (Str "were") = Str "was"
  /\ plural (Num (Int 2)) (Str "was") (Str "were") = Str "were".
Proof.
  assert (Hiff : forall m, m <> Str single ->
            (plural (Num num) (Str single) m = Str single <-> num = Int 1)).
  { intros m Hm. split; [| intros ->; apply plural_one].
    intros H. destruct num as [|z]; [| destruct (Z.eq_dec z 1); [congruence |]];
      (rewrite plural_not_one in H by congruence;
       destruct (ToBoolean m); [congruence |];
       injection H as H; now apply snoc_neq in H). }
  split; [intros ->; apply plural_one |].
  split; [intros H; now apply plural_not_one |].
  split; [apply Hiff; discriminate |].
  split; [apply Hiff |].
  repeat split.
Qed.

Lemma plural_spec_witness :
  plural (Num (Int 1)) (Str "sheep") (Str "flock") = Str "sheep"
  /\ plural (Num (Int 3)) (Str "sheep") (Str "flock") = Str "flock"
  /\ plural (Num (Int 3)) (Str "sheep") (Str "") = Str "sheeps"
  /\ plural (Num NaN) (Str "sheep") (Str "flock") <> Str "sheep".
Proof.
  split; [apply (proj1 (plural_spec (Int 1) "sheep" (Str "flock")));
          reflexivity |].
  split; [apply (proj1 (proj2 (plural_spec (Int 3) "sheep" (Str "flock"))));
          discriminate |].
  split; [apply (proj1 (proj2 (plural_spec (Int 3) "sheep" (Str ""))));
          discriminate |].
  intros H.
  apply (proj1 (proj2 (proj2 (proj2 (plural_spec NaN "sheep" (Str "flock"))))))
    in H; discriminate.
Defined.

(** ** Configuration *)

(** C4. After [configure(opts)] each of the four fields of the Global
    Configuration State holds the value of [opts] when that value is
    truthy, and its old value otherwise.  So an empty [opts] changes
    nothing, [{key: 'abc'}] changes [key] alone, and a field that held a
    truthy value still holds one. *)
Theorem configure_spec (G : GlobalConfig) (opts : gmap string value) :
  global_trackerURI (configure G opts)
  = (if ToBoolean (prop opts "trackerURI") then prop opts "trackerURI"
     else global_trackerURI G)
  /\ global_revision (configure G opts)
     = (if ToBoolean (prop opts "revision") then prop opts "revision"
        else global_revision G)
  /\ global_project (configure G opts)
     = (if ToBoolean (prop opts "project") then prop opts "project"
        else global_project G)
  /\ global_key (configure G opts)
     = (if ToBoolean (prop opts "key") then prop opts "key"
        else global_key G)
  /\ configure G ∅ = G
  /\ configure G {["key" := Str "abc"]}
     = {| global_trackerURI := global_trackerURI G;
          global_revision := global_revision G;
          global_project := global_project G;
          global_key := Str "abc" |}
  /\ (ToBoolean (global_trackerURI G) = true ->
      ToBoolean (global_trackerURI (configure G opts)) = true)
  /\ (ToBoolean (global_revision G) = true ->
      ToBoolean (global_revision (configure G opts)) = true)
  /\ (ToBoolean (global_project G) = true ->
      ToBoolean (global_project (configure G opts)) = true)
  /\ (ToBoolean (global_key G) = true ->
      ToBoolean (global_key (configure G opts)) = true).
Proof.
  assert (Hfields :
    global_trackerURI (configure G opts)
    = (if ToBoolean (prop opts "trackerURI") then prop opts "trackerURI"
       else global_trackerURI G)
    /\ global_revision (configure G opts)
       = (if ToBoolean (prop opts "revision") then prop opts "revision"
          else global_revision G)
    /\ global_project (configure G opts)
       = (if ToBoolean (prop opts "project") then prop opts "project"
          else global_project G)
    /\ global_key (configure G opts)
       = (if ToBoolean (prop opts "key") then prop opts "key"
          else global_key G)).
  { unfold configure.
    destruct (ToBoolean (prop opts "trackerURI")),
      (ToBoolean (prop opts "revision")),
      (ToBoolean (prop opts "project")),
      (ToBoolean (prop opts "key")); repeat split. }
  destruct Hfields as (Ht & Hr & Hp & Hk).
  repeat (split; [assumption |]).
  split; [now destruct G |].
  split; [now destruct G |].
  rewrite Ht, Hr, Hp, Hk.
  repeat split; intros H;
    match goal with
    | |- ToBoolean (if ToBoolean ?v then _ else _) = true =>
        destruct (ToBoolean v) eqn:E; [exact E | exact H]
    end.
Qed.

Lemma configure_spec_witness :
  let G := {| global_trackerURI := Str "https://api.example.com/";
              global_revision := Str "abc";
              global_project := Str "demo";
              global_key := Undefined |} in
  ToBoolean (global_trackerURI G) = true
  /\ ToBoolean
       (global_trackerURI
          (configure G {["trackerURI" := Undefined; "key" := Str "k"]}))
     = true.
Proof.
  intros G. split; [reflexivity |].
  apply (configure_spec G {["trackerURI" := Undefined; "key" := Str "k"]}).
  reflexivity.
Defined.

(** ** The reporter and its payload *)

Lemma append_nil_r (s : string) : s +:+ "" = s.
Proof.
  induction s as [|a s IH]; [reflexivity |].
  change (String a (s +:+ "") = String a s). now rewrite IH.
Qed.

Lemma append_assoc (s t u : string) : (s +:+ t) +:+ u = s +:+ t +:+ u.
Proof.
  induction s as [|a s IH]; [reflexivity |].
  change (String a ((s +:+ t) +:+ u) = String a (s +:+ t +:+ u)).
  now rewrite IH.
Qed.

Lemma ToBoolean_append (s : string) (c : ascii) (t : string) :
  ToBoolean (Str (s +:+ String c t)) = true.
Proof. now destruct s. Qed.

Lemma scanURI_truthy (this : Reporter) :
  ToBoolean (scanURI this) = ToBoolean (trackerURI this).
Proof.
  unfold scanURI. destruct (ToBoolean (trackerURI this)); simpl;
    [apply ToBoolean_append | reflexivity].
Qed.

(** [report] touches the network exactly when the reporter's [trackerURI]
    is truthy. *)
Lemma report_network {Node : Type}
    (JSON_stringify : ReportPayload Node -> string)
    (this : Reporter) (result : ScanResult Node) :
  existsb is_network (fst (report JSON_stringify this result))
  = ToBoolean (trackerURI this).
Proof.
  unfold report, post. rewrite scanURI_truthy.
  now destruct (ToBoolean (trackerURI this)).
Qed.

(** C1. [report(scanResult)] is the call of [post] on the reporter's
    [scanURI], which is [undefined] when [trackerURI] is absent (falsy) and
    [trackerURI] followed by "/api/v1/scans" otherwise, and on an object
    with the five properties [revision], [scan_name], [project_name], [key]
    and [result], in this order, filled from the instance and the scan
    result.  On the wire that is a POST of this payload to that URI, and
    without a URI a warning that shows this payload. *)
Theorem report_posts_payload {Node : Type}
    (JSON_stringify : ReportPayload Node -> string)
    (this : Reporter) (scanResult : ScanResult Node) :
  exists (uri : value) (payload : ReportPayload Node),
    report JSON_stringify this scanResult = post JSON_stringify uri payload
    /\ uri = scanURI this
    /\ uri = (if ToBoolean (trackerURI this)
              then Str (ToString (trackerURI this) +:+ "/api/v1/scans")
              else Undefined)
    /\ payload = [("revision", Prim (revision this));
                  ("scan_name", Prim (scanName this));
                  ("project_name", Prim (project this));
                  ("key", Prim (key this));
                  ("result", Result scanResult)]
    /\ map fst payload
       = ["revision"; "scan_name"; "project_name"; "key"; "result"]
    /\ fst (report JSON_stringify this scanResult)
       = (if ToBoolean (trackerURI this)
          then [new_XHR;
                xhr_open "POST" uri true;
                xhr_setRequestHeader "content-type" "application/json";
                xhr_send (JSON_stringify payload)]
          else [console_warn
                  (text "a11y-tracker URI is blank. would have posted:");
                console_warn (object payload)]).
Proof.
  eexists _, _. split; [reflexivity |]. split; [reflexivity |].
  split; [unfold scanURI; now destruct (ToBoolean (trackerURI this)) |].
  split; [reflexivity |]. split; [reflexivity |].
  unfold report, post. rewrite scanURI_truthy.
  now destruct (ToBoolean (trackerURI this)).
Qed.

(** C10. The page a reporter was constructed with does not reach its
    report: two reporters that differ in the page alone produce the same
    effects (the same request to the same URI with the same payload, or the
    same warnings) and the same promise, for every scan result. *)
Theorem report_ignores_page {Node : Type}
    (JSON_stringify : ReportPayload Node -> string)
    (G : GlobalConfig) (page1 page2 name : value)
    (opts : option (gmap string value)) (scanResult : ScanResult Node) :
  report JSON_stringify (new_A11yReporter G page1 name opts) scanResult
  = report JSON_stringify (new_A11yReporter G page2 name opts) scanResult
  /\ forall this : Reporter,
       report JSON_stringify this scanResult
       = report JSON_stringify
           {| page := page2;
              scanName := scanName this;
              revision := revision this;
              project := project this;
              key := key this;
              trackerURI := trackerURI this |} scanResult.
Proof. split; [reflexivity | intros this; reflexivity]. Qed.

(** ** The effective tracker URI *)

Lemma eqb_slash (c : ascii) :
  String.eqb (String c "") "/" = Ascii.eqb c "/"%char.
Proof. simpl. now destruct (Ascii.eqb c "/"%char). Qed.

Lemma chomp_no_slash (s : string) :
  ends_with "/" s = false -> chomp (Str s) "/" = Str s.
Proof.
  intros H. destruct (snoc_cases s) as [-> | (p & c & ->)]; [reflexivity |].
  rewrite ends_with_snoc in H. now rewrite chomp_snoc, eqb_slash, H.
Qed.

Lemma chomp_slash (s : string) : chomp (Str (s +:+ "/")) "/" = Str s.
Proof. now rewrite chomp_snoc. Qed.

(** What [chomp] leaves of a tidy value. *)
Lemma chomp_tidy (configured : value) :
  tidy configured = true ->
  (exists s, chomp configured "/" = Str s /\ s <> "" /\ ends_with "/" s = false)
  \/ ToBoolean (chomp configured "/") = false.
Proof.
  intros Htidy.
  destruct (ToBoolean configured) eqn:Htruthy;
    [| right; now rewrite chomp_falsy].
  destruct configured as [| |b|n|s];
    try (unfold tidy in Htidy; rewrite Htruthy in Htidy; discriminate).
  simpl in Htidy. apply negb_true_iff in Htidy.
  destruct (snoc_cases s) as [-> | (p & c & ->)]; [discriminate |].
  rewrite chomp_snoc, eqb_slash.
  destruct (Ascii.eqb c "/"%char) eqn:Hc.
  - apply Ascii.eqb_eq in Hc. subst c.
    destruct p as [|a p]; [now right |]. left. exists (String a p).
    split; [reflexivity |]. split; [discriminate |].
    destruct (ends_with "/" (String a p)) eqn:Hp; [exfalso | reflexivity].
    apply ends_with_spec in Hp. destruct Hp as [q Hq]. rewrite Hq in Htidy.
    assert (ends_with "//" ((q +:+ "/") +:+ "/") = true) as Htwo
      by (apply ends_with_spec; exists q; apply append_assoc).
    congruence.
  - left. exists (p +:+ String c ""). split; [reflexivity |].
    split; [now destruct p |]. now rewrite ends_with_snoc.
Qed.

(** C5 as the specification states it fails: a configured URI that ends in
    two slashes leaves a reporter whose effective [trackerURI] is a
    non-empty string that still ends in a slash. *)
Lemma effective_trackerURI_counterexample :
  let this :=
    new_A11yReporter initial (Str "/some/url") (Str "login")
      (Some {["trackerURI" := Str "https://api.example.com//"]}) in
  trackerURI this = Str "https://api.example.com/"
  /\ ~ ((exists s, trackerURI this = Str s /\ s <> ""
                   /\ ends_with "/" s = false)
        \/ ToBoolean (trackerURI this) = false).
Proof.
  split; [reflexivity |].
  intros [(s & Hs & _ & Hslash) | Habsent]; [| discriminate Habsent].
  injection Hs as <-. discriminate Hslash.
Qed.

(** C5, amended. When the configured tracker URI (that of [opts], else the
    global one) is falsy or a string that does not end in two slashes, the
    reporter's effective [trackerURI] is a non-empty string with no trailing
    slash, or falsy.  For every reporter, however it was configured,
    [report] makes no network call exactly when its [trackerURI] is
    falsy. *)
Theorem effective_trackerURI_invariant {Node : Type}
    (JSON_stringify : ReportPayload Node -> string)
    (G : GlobalConfig) (page name : value)
    (opts : option (gmap string value)) (scanResult : ScanResult Node) :
  let configured :=
    js_or (prop (default ∅ opts) "trackerURI") (global_trackerURI G) in
  let this := new_A11yReporter G page name opts in
  (tidy configured = true ->
   (exists s, trackerURI this = Str s /\ s <> "" /\ ends_with "/" s = false)
   \/ ToBoolean (trackerURI this) = false)
  /\ (ToBoolean (trackerURI this) = false
      <-> existsb is_network (fst (report JSON_stringify this scanResult))
          = false)
  /\ (forall reporter : Reporter,
        ToBoolean (trackerURI reporter) = false
        <-> existsb is_network
              (fst (report JSON_stringify reporter scanResult))
            = false).
Proof.
  intros configured this. split; [| split].
  - exact (chomp_tidy configured).
  - now rewrite report_network.
  - intros reporter. now rewrite report_network.
Qed.

Lemma effective_trackerURI_invariant_witness :
  let G :=
    {| global_trackerURI := Str "https://api.example.com/";
       global_revision := Str "abc";
       global_project := Str "demo";
       global_key := Undefined |} in
  let this := new_A11yReporter G (Str "/some/url") (Str "login") None in
  tidy (js_or (prop ∅ "trackerURI") (global_trackerURI G)) = true
  /\ ((exists s, trackerURI this = Str s /\ s <> ""
                 /\ ends_with "/" s = false)
      \/ ToBoolean (trackerURI this) = false).
Proof.
  intros G this. split; [reflexivity |].
  apply (proj1 (effective_trackerURI_invariant
                  (fun _ : ReportPayload unit => "{}") G (Str "/some/url")
                  (Str "login") None {| violations := [] |})).
  reflexivity.
Defined.

(** C6. When the configured tracker URI is a string that ends in a slash,
    the reporter's effective [trackerURI] is that string without its last
    character; only one slash goes, whatever precedes it.  [chomp] returns a
    string with another last character, and any falsy value, as it is. *)
Theorem effective_trackerURI_chomped (G : GlobalConfig) (page name : value)
    (opts : option (gmap string value)) (s : string) :
  js_or (prop (default ∅ opts) "trackerURI") (global_trackerURI G)
  = Str (s +:+ "/") ->
  trackerURI (new_A11yReporter G page name opts) = Str s
  /\ chomp (Str (s +:+ "/")) "/" = Str s
  /\ String.length s = Nat.pred (String.length (s +:+ "/"))
  /\ (forall t, ends_with "/" t = false -> chomp (Str t) "/" = Str t)
  /\ (forall v, ToBoolean v = false -> chomp v "/" = v).
Proof.
  intros Hconfigured. split.
  - unfold new_A11yReporter. cbn [trackerURI].
    rewrite Hconfigured. apply chomp_slash.
  - split; [apply chomp_slash |].
    split; [now rewrite length_snoc |].
    split; [exact chomp_no_slash | intros v; apply chomp_falsy].
Qed.

Lemma effective_trackerURI_chomped_witness :
  js_or (prop {["trackerURI" := Str "https://api.example.com//"]} "trackerURI")
    (global_trackerURI initial)
  = Str ("https://api.example.com/" +:+ "/")
  /\ trackerURI
       (new_A11yReporter initial (Str "/some/url") (Str "login")
          (Some {["trackerURI" := Str "https://api.example.com//"]}))
     = Str "https://api.example.com/".
Proof.
  split; [reflexivity |].
  apply (effective_trackerURI_chomped initial (Str "/some/url") (Str "login")
           (Some {["trackerURI" := Str "https://api.example.com//"]})
           "https://api.example.com/").
  reflexivity.
Defined.

(** ** The Cypress command: logging and the assertion *)

Lemma strict_eq_of_nat_one (n : nat) :
  strict_eq (of_nat n) (Num (Int 1)) = Nat.eqb n 1.
Proof.
  unfold of_nat. simpl.
  destruct (Nat.eqb_spec n 1) as [-> | Hn]; [reflexivity |].
  apply Z.eqb_neq. lia.
Qed.

Lemma plural_of_nat (n : nat) (single multiple : value) :
  plural (of_nat n) single multiple
  = if Nat.eqb n 1 then single
    else if ToBoolean multiple then multiple
         else Str (ToString single +:+ "s").
Proof.
  unfold plural. rewrite strict_eq_of_nat_one.
  now destruct (Nat.eqb n 1), (ToBoolean multiple).
Qed.

(** The text both sources put in the assertion message. *)
Lemma detected_text (n : nat) :
  ToString (of_nat n) +:+ " "
    +:+ ToString (plural (of_nat n) (Str "violation") Undefined) +:+ " "
    +:+ ToString (plural (of_nat n) (Str "was") (Str "were")) +:+ " detected"
  = pretty (Z.of_nat n) +:+ " "
      +:+ (if Nat.eqb n 1 then "violation was" else "violations were")
      +:+ " detected".
Proof. rewrite !plural_of_nat. now destruct (Nat.eqb n 1). Qed.

Lemma assert_equal_zero (n : nat) (message : string) :
  assert_equal (Z.of_nat n) 0 message
  = if Nat.eqb n 0 then passes else AssertionError message.
Proof.
  unfold assert_equal.
  destruct (Nat.eqb_spec n 0) as [-> | Hn]; [reflexivity |].
  destruct (Z.eqb_spec (Z.of_nat n) 0); [lia | reflexivity].
Qed.

(** C7 as the specification states it fails on the tracker-era source: for
    two violations its message is not "2 violations were detected", it
    carries the prefix "a11y: ". *)
Lemma assert_stage_message_counterexample :
  length (violations two_violations) = 2%nat
  /\ assert_stage two_violations
     = AssertionError "a11y: 2 violations were detected"
  /\ assert_stage two_violations
     <> AssertionError "2 violations were detected".
Proof. repeat split. discriminate. Qed.

(** C7, amended. The assertion stage passes exactly when the scan result has
    no violation.  With [n > 0] violations it fails, and the message it
    hands to the assertion is "a11y: " followed by
    "<n> <violation|violations> <was|were> detected", singular for one
    violation and plural otherwise; the stage of [src/index.js] fails with
    the same text without the prefix.  For two violations these are
    "a11y: 2 violations were detected" and "2 violations were detected". *)
Theorem assert_stage_message {Node : Type} (result : ScanResult Node) :
  let n := length (violations result) in
  let detected :=
    pretty (Z.of_nat n) +:+ " "
      +:+ (if Nat.eqb n 1 then "violation was" else "violations were")
      +:+ " detected" in
  (assert_stage result = passes <-> n = 0%nat)
  /\ (IndexJs.assert_stage result = passes <-> n = 0%nat)
  /\ (n <> 0%nat ->
      assert_stage result = AssertionError ("a11y: " +:+ detected)
      /\ IndexJs.assert_stage result = AssertionError detected)
  /\ (n = 2%nat ->
      assert_stage result = AssertionError "a11y: 2 violations were detected"
      /\ IndexJs.assert_stage result
         = AssertionError "2 violations were detected").
Proof.
  intros n detected.
  assert (Hnew : assert_stage result
                 = if Nat.eqb n 0 then passes
                   else AssertionError ("a11y: " +:+ detected)).
  { unfold assert_stage. fold n. rewrite assert_equal_zero.
    unfold detected. now rewrite <- detected_text. }
  assert (Hold : IndexJs.assert_stage result
                 = if Nat.eqb n 0 then passes else AssertionError detected).
  { unfold IndexJs.assert_stage. fold n. rewrite assert_equal_zero.
    unfold detected. now rewrite <- detected_text. }
  rewrite Hnew, Hold. unfold detected. clear Hnew Hold detected.
  destruct (Nat.eqb_spec n 0) as [Hn | Hn].
  - split; [now split |]. split; [now split |].
    split; [intros H; contradiction | intros H; lia].
  - split; [split; [discriminate | contradiction] |].
    split; [split; [discriminate | contradiction] |].
    split; [intros _; now split |].
    intros ->. now split.
Qed.

Lemma assert_stage_message_witness :
  length (violations two_violations) <> 0%nat
  /\ assert_stage two_violations
     = AssertionError "a11y: 2 violations were detected"
  /\ IndexJs.assert_stage two_violations
     = AssertionError "2 violations were detected".
Proof.
  split; [discriminate |].
  apply (proj1 (proj2 (proj2 (assert_stage_message two_violations)))).
  discriminate.
Defined.

Lemma logs_of_app {Node : Type} (events1 events2 : list (event Node)) :
  logs_of (events1 ++ events2) = logs_of events1 ++ logs_of events2.
Proof. apply omap_app. Qed.

Lemma logs_of_transport {Node : Type}
    (effects : list (effect (ReportPayload Node))) :
  logs_of (map (@transport Node) effects) = [].
Proof. induction effects as [|e effects IH]; [reflexivity | exact IH]. Qed.

Lemma logs_of_Cypress_log {Node : Type} (entries : list (LogEntry Node)) :
  logs_of (map Cypress_log entries) = entries.
Proof.
  induction entries as [|e entries IH]; [reflexivity |].
  change (e :: logs_of (map Cypress_log entries) = e :: entries).
  now rewrite IH.
Qed.

Lemma append_cancel_l (s t u : string) : s +:+ t = s +:+ u -> t = u.
Proof.
  induction s as [|a s IH]; intros H; [exact H |].
  apply IH. now injection H.
Qed.

(** C8 as the specification states it fails: for a violation without an
    affected node the message carries the node count in parentheses,
    "(0)", although not more than one node is affected. *)
Lemma report_stage_logs_counterexample :
  let violation : Violation unit :=
    {| violation_id := Str "color-contrast"; impact := Str "serious";
       nodes := [] |} in
  message (log_violation violation) = "color-contrast (0)"
  /\ ~ (message (log_violation violation)
        = ToString (violation_id violation)
            +:+ " (" +:+ pretty (Z.of_nat (length (nodes violation))) +:+ ")"
        <-> (1 < length (nodes violation))%nat).
Proof.
  split; [reflexivity |].
  intros [Hcounted _]. specialize (Hcounted eq_refl). simpl in Hcounted. lia.
Qed.

(** C8, amended. Whatever becomes of the report, the second stage logs once
    per violation, in the order of the scan result.  The entry of a
    violation is named "a11y/" followed by its impact and carries the
    violation itself; its message is the violation id alone exactly when
    one node is affected, and the id followed by the node count in
    parentheses exactly when the count is anything else, zero included.  So
    for a violation with at least one node the count is there exactly when
    more than one node is affected. *)
Theorem report_stage_logs {Node : Type}
    (JSON_stringify : ReportPayload Node -> string)
    (reporter : Reporter) (result : ScanResult Node) :
  logs_of (fst (report_stage JSON_stringify reporter result))
  = map log_violation (violations result)
  /\ length (logs_of (fst (report_stage JSON_stringify reporter result)))
     = length (violations result)
  /\ forall violation : Violation Node,
       let n := length (nodes violation) in
       let counted :=
         ToString (violation_id violation)
           +:+ " (" +:+ pretty (Z.of_nat n) +:+ ")" in
       name (log_violation violation)
       = "a11y/" +:+ ToString (impact violation)
       /\ consoleProps (log_violation violation) = violation
       /\ (message (log_violation violation)
           = ToString (violation_id violation)
           <-> n = 1%nat)
       /\ (message (log_violation violation) = counted <-> n <> 1%nat)
       /\ ((1 <= n)%nat ->
           (message (log_violation violation) = counted <-> (1 < n)%nat)).
Proof.
  assert (Hlogs : logs_of (fst (report_stage JSON_stringify reporter result))
                  = map log_violation (violations result)).
  { unfold report_stage. cbn [fst].
    rewrite logs_of_app, logs_of_transport.
    rewrite <- (map_map log_violation Cypress_log).
    apply logs_of_Cypress_log. }
  split; [exact Hlogs |]. split; [now rewrite Hlogs, length_map |].
  intros violation n counted.
  assert (Hmsg : message (log_violation violation)
                 = if Nat.eqb n 1 then ToString (violation_id violation)
                   else counted).
  { unfold log_violation. cbn [message]. fold n.
    rewrite strict_eq_of_nat_one.
    destruct (Nat.eqb n 1); [apply append_nil_r | reflexivity]. }
  assert (Hdiffer : counted <> ToString (violation_id violation)).
  { unfold counted. intros H.
    rewrite <- (append_nil_r (ToString (violation_id violation))) in H at 2.
    apply append_cancel_l in H. discriminate H. }
  split; [reflexivity |]. split; [reflexivity |].
  rewrite Hmsg. destruct (Nat.eqb_spec n 1) as [Hn | Hn].
  - split; [now split |].
    split; [split; [intros H; now destruct Hdiffer | contradiction] |].
    intros _. split; [intros H; now destruct Hdiffer | lia].
  - split; [split; [intros H; now destruct Hdiffer | contradiction] |].
    split; [now split |].
    intros Hle. split; [lia | reflexivity].
Qed.

Lemma report_stage_logs_witness :
  let reporter :=
    new_A11yReporter initial (Str "/some/url") (Str "login")
      (Some {["trackerURI" := Str "https://api.example.com/"]}) in
  map message
    (logs_of (fst (report_stage (fun _ => "{}") reporter two_violations)))
  = ["color-contrast (3)"; "image-alt"]
  /\ map name
       (logs_of (fst (report_stage (fun _ => "{}") reporter two_violations)))
     = ["a11y/serious"; "a11y/critical"]
  /\ message
       (log_violation
          {| violation_id := Str "image-alt"; impact := Str "critical";
             nodes := [tt] |})
     = "image-alt".
Proof.
  intros reporter.
  destruct (report_stage_logs (fun _ => "{}") reporter two_violations)
    as (Hlogs & _ & Hentry).
  rewrite Hlogs. split; [reflexivity |]. split; [reflexivity |].
  apply (Hentry {| violation_id := Str "image-alt"; impact := Str "critical";
                   nodes := [tt] |}).
  reflexivity.
Defined.

(** ** The scenarios of the specification, run through the three stages *)

(** No tracker URI: the report is a dry run that resolves at once, nothing
    is logged to Cypress for an empty result, and the assertion passes. *)
Example scenario_dry_run :
  let G :=
    configure initial {["revision" := Str "abc"; "project" := Str "demo"]} in
  let reporter := acquire_stage G ∅ (Str "http://localhost/") (Str "home") in
  let result : ScanResult unit := {| violations := [] |} in
  report_stage (fun _ => "{}") reporter result
  = ([transport
        (console_warn (text "a11y-tracker URI is blank. would have posted:"));
      transport
        (console_warn
           (object [("revision", Prim (Str "abc"));
                    ("scan_name", Prim (Str "home"));
                    ("project_name", Prim (Str "demo"));
                    ("key", Prim Undefined);
                    ("result", Result result)]))],
     Settled (Resolve EmptyObject))
  /\ settle_stage (Resolve EmptyObject) result = asserted passes.
Proof. split; reflexivity. Qed.

(** A tracker URI with a trailing slash and two violations: the POST goes
    to the chomped URI, both violations are logged, and once the report has
    resolved the assertion fails. *)
Example scenario_two_violations :
  let G :=
    configure initial {["trackerURI" := Str "https://api.example.com/"]} in
  let reporter := acquire_stage G ∅ (Str "http://localhost/") (Str "home") in
  In (transport
        (xhr_open "POST" (Str "https://api.example.com/api/v1/scans") true))
     (fst (report_stage (fun _ => "{}") reporter two_violations))
  /\ map (fun entry => (name entry, message entry))
       (logs_of (fst (report_stage (fun _ => "{}") reporter two_violations)))
     = [("a11y/serious", "color-contrast (3)"); ("a11y/critical", "image-alt")]
  /\ settle_stage (Resolve (Body Undefined)) two_violations
     = asserted (AssertionError "a11y: 2 violations were detected").
Proof.
  split; [right; left; reflexivity |]. split; reflexivity.
Qed.

(** A rejected report ends the command before the assertion. *)
Example scenario_rejected :
  let xhr := {| status := 500; responseText := "" |} in
  onload xhr = Reject xhr
  /\ settle_stage (onload xhr) two_violations = report_rejected xhr.
Proof. split; reflexivity. Qed.

(** ** Further properties of the utility functions and the transport *)

(** X1. [chomp] takes nothing but the last character: its result on a
    string is that string, or the string without a final [ch], and then
    [ch] is one character long. *)
Theorem chomp_takes_last_only (s ch : string) :
  chomp (Str s) ch = Str s
  \/ (String.length ch = 1%nat
      /\ exists r, s = r +:+ ch /\ chomp (Str s) ch = Str r).
Proof.
  destruct (snoc_cases s) as [-> | (p & c & ->)]; [now left |].
  rewrite chomp_snoc.
  destruct (String.eqb_spec (String c "") ch) as [<- | Hne]; [| now left].
  right. split; [reflexivity |]. now exists p.
Qed.



(** X3. One [chomp] per slash: [k] successive chomps take [k] trailing
    slashes off a string, whatever the string before them is. *)
Theorem chomp_iterated (s : string) (k : nat) :
  Nat.iter k (fun v => chomp v "/") (Str (s +:+ slashes k)) = Str s.
Proof.
  revert s. induction k as [|k IH]; intros s.
  - simpl. now rewrite append_nil_r.
  - rewrite Nat.iter_succ. cbn [slashes].
    rewrite <- append_assoc, IH. apply chomp_slash.
Qed.

(** X4. [post] either warns or uses the network, never both: it touches
    the network exactly when the uri is truthy and warns exactly when it is
    not.  Whatever it opens it opens as an asynchronous POST to the uri it
    was given, and what it sends is the serialized data. *)
Theorem post_warns_or_sends {D : Type} (JSON_stringify : D -> string)
    (uri : value) (data : D) :
  existsb is_network (fst (post JSON_stringify uri data)) = ToBoolean uri
  /\ existsb is_warning (fst (post JSON_stringify uri data))
     = negb (ToBoolean uri)
  /\ (forall method target async,
        In (xhr_open method target async)
          (fst (post JSON_stringify uri data)) ->
        method = "POST" /\ target = uri /\ async = true)
  /\ (forall payload,
        In (xhr_send payload) (fst (post JSON_stringify uri data)) ->
        payload = JSON_stringify data).
Proof.
  unfold post. destruct (ToBoolean uri); simpl.
  - split; [reflexivity |]. split; [reflexivity |]. split.
    + intros m t a [H | [H | [H | [H | []]]]]; try discriminate H.
      now injection H as <- <- <-.
    + intros b [H | [H | [H | [H | []]]]]; try discriminate H.
      now injection H as <-.
  - split; [reflexivity |]. split; [reflexivity |]. split.
    + intros m t a [H | [H | []]]; discriminate H.
    + intros b [H | [H | []]]; discriminate H.
Qed.

Lemma post_warns_or_sends_witness :
  In (xhr_open "POST" (Str "https://api.example.com/api/v1/scans") true)
    (fst (post (fun n : nat => pretty n)
            (Str "https://api.example.com/api/v1/scans") 7%nat))
  /\ "POST" = "POST".
Proof.
  split; [right; left; reflexivity |].
  apply (proj1 (proj2 (proj2 (post_warns_or_sends (fun n : nat => pretty n)
                                (Str "https://api.example.com/api/v1/scans")
                                7%nat)))
           "POST" (Str "https://api.example.com/api/v1/scans") true).
  right. left. reflexivity.
Defined.

(** ** Further properties of the reporter and its configuration *)

Lemma configure_fields (G : GlobalConfig) (opts : gmap string value) :
  global_trackerURI (configure G opts)
  = js_or (prop opts "trackerURI") (global_trackerURI G)
  /\ global_revision (configure G opts)
     = js_or (prop opts "revision") (global_revision G)
  /\ global_project (configure G opts)
     = js_or (prop opts "project") (global_project G)
  /\ global_key (configure G opts) = js_or (prop opts "key") (global_key G).
Proof.
  unfold configure, js_or.
  destruct (ToBoolean (prop opts "trackerURI")),
    (ToBoolean (prop opts "revision")),
    (ToBoolean (prop opts "project")),
    (ToBoolean (prop opts "key")); repeat split.
Qed.

Lemma GlobalConfig_eq (G1 G2 : GlobalConfig) :
  global_trackerURI G1 = global_trackerURI G2 ->
  global_revision G1 = global_revision G2 ->
  global_project G1 = global_project G2 ->
  global_key G1 = global_key G2 ->
  G1 = G2.
Proof. destruct G1, G2. simpl. now intros -> -> -> ->. Qed.

Lemma js_or_idem (a b : value) : js_or a (js_or a b) = js_or a b.
Proof. unfold js_or. now destruct (ToBoolean a). Qed.

(** X5. A reporter built after [configure(c)] takes each of [revision],
    [project], [key] and the tracker URI from the first truthy one of: the
    constructor's [opts], the configured [c], the earlier global value (the
    last of these when none is truthy); the tracker URI then loses one
    trailing slash.  So a falsy option, an empty string for one, never
    overrides a configured value. *)
Theorem reporter_precedence (G : GlobalConfig) (c : gmap string value)
    (page name : value) (opts : option (gmap string value)) :
  let o := default ∅ opts in
  let this := new_A11yReporter (configure G c) page name opts in
  revision this
  = js_or (prop o "revision")
      (js_or (prop c "revision") (global_revision G))
  /\ project this
     = js_or (prop o "project")
         (js_or (prop c "project") (global_project G))
  /\ key this
     = js_or (prop o "key") (js_or (prop c "key") (global_key G))
  /\ trackerURI this
     = chomp (js_or (prop o "trackerURI")
                (js_or (prop c "trackerURI") (global_trackerURI G))) "/".
Proof.
  intros o this. unfold this, new_A11yReporter.
  cbn [revision project key trackerURI].
  destruct (configure_fields G c) as (-> & -> & -> & ->). repeat split.
Qed.

(** X6. The constructor and [configure] read the four properties
    [trackerURI], [revision], [project] and [key] of their [opts] and
    nothing else: two option objects that agree on these four give the same
    reporter and the same configuration. *)
Theorem only_four_options_read (G : GlobalConfig) (page name : value)
    (opts1 opts2 : gmap string value) :
  Forall (fun k => prop opts1 k = prop opts2 k)
    ["trackerURI"; "revision"; "project"; "key"] ->
  new_A11yReporter G page name (Some opts1)
  = new_A11yReporter G page name (Some opts2)
  /\ configure G opts1 = configure G opts2.
Proof.
  intros H.
  apply Forall_cons_1 in H as [Ht H]. apply Forall_cons_1 in H as [Hr H].
  apply Forall_cons_1 in H as [Hp H]. apply Forall_cons_1 in H as [Hk _].
  cbv beta in Ht, Hr, Hp, Hk. split.
  - unfold new_A11yReporter. cbn [from_option id].
    now rewrite Ht, Hr, Hp, Hk.
  - unfold configure. now rewrite Ht, Hr, Hp, Hk.
Qed.

Lemma only_four_options_read_witness :
  let opts1 : gmap string value := {["key" := Str "k"]} in
  let opts2 : gmap string value :=
    {["key" := Str "k"; "page" := Str "/other"; "runOnly" := Str "wcag2a"]} in
  configure initial opts1 = configure initial opts2.
Proof.
  intros opts1 opts2.
  apply (only_four_options_read initial Undefined Undefined opts1 opts2).
  repeat constructor.
Defined.

(** X7. The slash between the tracker URI and the path is never doubled by
    a single trailing slash: for a non-empty [s] that does not end in a
    slash, a reporter configured with [s] and one configured with [s]
    followed by a slash have the same scan URI, [s] followed by
    "/api/v1/scans". *)
Theorem scanURI_normalized (G1 G2 : GlobalConfig)
    (page1 page2 name1 name2 : value)
    (opts1 opts2 : option (gmap string value)) (s : string) :
  s <> "" ->
  ends_with "/" s = false ->
  js_or (prop (default ∅ opts1) "trackerURI") (global_trackerURI G1)
  = Str s ->
  js_or (prop (default ∅ opts2) "trackerURI") (global_trackerURI G2)
  = Str (s +:+ "/") ->
  scanURI (new_A11yReporter G1 page1 name1 opts1)
  = Str (s +:+ "/api/v1/scans")
  /\ scanURI (new_A11yReporter G2 page2 name2 opts2)
     = Str (s +:+ "/api/v1/scans").
Proof.
  intros Hs Hslash H1 H2.
  unfold scanURI, new_A11yReporter. cbn [trackerURI].
  rewrite H1, H2, chomp_slash, (chomp_no_slash s Hslash).
  destruct s; [contradiction | now split].
Qed.

Lemma scanURI_normalized_witness :
  scanURI
    (new_A11yReporter initial Undefined Undefined
       (Some {["trackerURI" := Str "https://api.example.com"]}))
  = Str ("https://api.example.com" +:+ "/api/v1/scans")
  /\ scanURI
       (new_A11yReporter
          (configure initial {["trackerURI" := Str "https://api.example.com/"]})
          Undefined Undefined None)
     = Str ("https://api.example.com" +:+ "/api/v1/scans").
Proof.
  apply (scanURI_normalized initial
           (configure initial
              {["trackerURI" := Str "https://api.example.com/"]})
           Undefined Undefined Undefined Undefined
           (Some {["trackerURI" := Str "https://api.example.com"]}) None
           "https://api.example.com");
    [discriminate | reflexivity | reflexivity | reflexivity].
Defined.

(** X8. For a configured tracker URI that is a string, [report] is a dry
    run exactly when the string is empty or is the single slash: chomping
    "/" leaves the empty string, which counts as no URI at all. *)
Theorem dry_run_strings {Node : Type}
    (JSON_stringify : ReportPayload Node -> string)
    (G : GlobalConfig) (page name : value)
    (opts : option (gmap string value)) (result : ScanResult Node)
    (s : string) :
  js_or (prop (default ∅ opts) "trackerURI") (global_trackerURI G) = Str s ->
  (existsb is_network
     (fst (report JSON_stringify (new_A11yReporter G page name opts) result))
   = false
   <-> s = "" \/ s = "/").
Proof.
  intros Hs. rewrite report_network.
  unfold new_A11yReporter. cbn [trackerURI]. rewrite Hs.
  destruct (snoc_cases s) as [-> | (p & c & ->)]; [split; auto |].
  rewrite chomp_snoc, eqb_slash.
  destruct (Ascii.eqb_spec c "/"%char) as [-> | Hc].
  - destruct p as [|a p]; [split; auto |].
    split; [discriminate |].
    intros [H | H]; [discriminate H |].
    injection H as _ H. now destruct p.
  - rewrite ToBoolean_snoc. split; [discriminate |].
    intros [H | H]; [now destruct p |].
    destruct p as [|a p]; [injection H as ->; contradiction |].
    injection H as _ H. now destruct p.
Qed.

Lemma dry_run_strings_witness :
  js_or (prop (default ∅ (Some {["trackerURI" := Str "/"]})) "trackerURI")
    (global_trackerURI initial)
  = Str "/"
  /\ existsb is_network
       (fst (report (fun _ : ReportPayload unit => "{}")
               (new_A11yReporter initial Undefined Undefined
                  (Some {["trackerURI" := Str "/"]}))
               two_violations))
     = false.
Proof.
  split; [reflexivity |].
  apply (dry_run_strings (fun _ : ReportPayload unit => "{}") initial
           Undefined Undefined (Some {["trackerURI" := Str "/"]})
           two_violations "/"); [reflexivity | now right].
Defined.

(** X9. [configure] is idempotent: making the same call again changes
    nothing. *)
Theorem configure_idempotent (G : GlobalConfig) (opts : gmap string value) :
  configure (configure G opts) opts = configure G opts.
Proof.
  destruct (configure_fields (configure G opts) opts) as (Ht & Hr & Hp & Hk).
  destruct (configure_fields G opts) as (Ht' & Hr' & Hp' & Hk').
  apply GlobalConfig_eq.
  - now rewrite Ht, Ht', js_or_idem.
  - now rewrite Hr, Hr', js_or_idem.
  - now rewrite Hp, Hp', js_or_idem.
  - now rewrite Hk, Hk', js_or_idem.
Qed.

(** X10. Successive [configure] calls merge field by field: after
    [configure(opts1)] and then [configure(opts2)] a field holds the value
    of [opts2] when that is truthy, else the value of [opts1] when that is
    truthy, else what it held before. *)
Theorem configure_twice (G : GlobalConfig) (opts1 opts2 : gmap string value) :
  let G' := configure (configure G opts1) opts2 in
  global_trackerURI G'
  = js_or (prop opts2 "trackerURI")
      (js_or (prop opts1 "trackerURI") (global_trackerURI G))
  /\ global_revision G'
     = js_or (prop opts2 "revision")
         (js_or (prop opts1 "revision") (global_revision G))
  /\ global_project G'
     = js_or (prop opts2 "project")
         (js_or (prop opts1 "project") (global_project G))
  /\ global_key G'
     = js_or (prop opts2 "key") (js_or (prop opts1 "key") (global_key G)).
Proof.
  intros G'. unfold G'.
  destruct (configure_fields (configure G opts1) opts2) as (-> & -> & -> & ->).
  destruct (configure_fields G opts1) as (-> & -> & -> & ->).
  repeat split.
Qed.

(** ** The qualified test name *)

Lemma Runnable_induction (P : Runnable -> Prop) :
  (forall title, P (runnable title None)) ->
  (forall title parent, P parent -> P (runnable title (Some parent))) ->
  forall runner, P runner.
Proof.
  intros Htop Hnested. fix IH 1.
  intros [title [parent |]]; [apply Hnested, IH | apply Htop].
Qed.

Lemma walk_app (runner : Runnable) (out : list value) :
  walk runner out = out ++ walk runner [].
Proof.
  revert out. induction runner as [title | title parent IH]
    using Runnable_induction; intros out; cbn [walk].
  - destruct (ToBoolean title); [reflexivity | now rewrite app_nil_r].
  - rewrite (IH (if ToBoolean title then out ++ [title] else out)).
    rewrite (IH (if ToBoolean title then [] ++ [title] else [])).
    destruct (ToBoolean title);
      [now rewrite <- app_assoc | reflexivity].
Qed.

Lemma walk_untitled (runner : Runnable) :
  titled runner = false -> walk runner [] = [].
Proof.
  induction runner as [title | title parent IH] using Runnable_induction;
    cbn [walk titled]; intros H; apply orb_false_elim in H as [-> H];
    [reflexivity | now apply IH].
Qed.

Lemma walk_titled (runner : Runnable) :
  titled runner = true -> walk runner [] <> [].
Proof.
  induction runner as [title | title parent IH] using Runnable_induction;
    cbn [walk titled]; destruct (ToBoolean title); cbn [orb].
  - discriminate.
  - discriminate.
  - intros _. rewrite walk_app. discriminate.
  - exact IH.
Qed.

Lemma join_element_truthy (v : value) :
  ToBoolean v = true -> join_element v = ToString v.
Proof. now destruct v. Qed.

(** X11. A runnable with a falsy title, such as Mocha's root suite with
    its empty title, adds nothing to the name, not even a separator: the
    name is that of its parent chain. *)
Theorem getTestNameFromMocha_skips_falsy (title : value)
    (parent : option Runnable) :
  ToBoolean title = false ->
  getTestNameFromMocha (Some (runnable title parent))
  = getTestNameFromMocha parent.
Proof.
  intros H. unfold getTestNameFromMocha. cbn [walk]. rewrite H.
  now destruct parent.
Qed.

Lemma getTestNameFromMocha_skips_falsy_witness :
  ToBoolean (Str "") = false
  /\ getTestNameFromMocha
       (Some (runnable (Str "") (Some (runnable (Str "logs in") None))))
     = getTestNameFromMocha (Some (runnable (Str "logs in") None)).
Proof.
  split; [reflexivity |].
  apply (getTestNameFromMocha_skips_falsy (Str "")
           (Some (runnable (Str "logs in") None))).
  reflexivity.
Defined.

(** X12. A truthy title comes first, innermost before outermost: the name
    is the title, followed by "::" and the name of the parent chain when
    some runnable further up has a truthy title, and the title alone when
    none has. *)
Theorem getTestNameFromMocha_prepends (title : value)
    (parent : option Runnable) :
  ToBoolean title = true ->
  getTestNameFromMocha (Some (runnable title parent))
  = ToString title
      +:+ match parent with
          | Some runner =>
              if titled runner
              then "::" +:+ getTestNameFromMocha parent
              else ""
          | None => ""
          end.
Proof.
  intros H. unfold getTestNameFromMocha. cbn [walk]. rewrite H.
  destruct parent as [runner |]; cbn [app].
  - rewrite walk_app. cbn [app Array_join]. rewrite (join_element_truthy _ H).
    destruct (titled runner) eqn:Ht.
    + apply walk_titled in Ht.
      destruct (walk runner []); [now destruct Ht | reflexivity].
    + rewrite (walk_untitled _ Ht). now rewrite append_nil_r.
  - cbn [Array_join]. rewrite (join_element_truthy _ H).
    now rewrite append_nil_r.
Qed.

Lemma getTestNameFromMocha_prepends_witness :
  getTestNameFromMocha
    (Some (runnable (Str "logs in")
             (Some (runnable (Str "login page")
                      (Some (runnable (Str "") None))))))
  = "logs in" +:+ "::" +:+ "login page".
Proof.
  rewrite (getTestNameFromMocha_prepends (Str "logs in")
             (Some (runnable (Str "login page")
                      (Some (runnable (Str "") None)))) eq_refl).
  reflexivity.
Defined.

(** X13. A chain without a single truthy title has the empty name; no
    separator is ever written for it. *)
Theorem getTestNameFromMocha_untitled (runner : Runnable) :
  titled runner = false ->
  getTestNameFromMocha (Some runner) = "".
Proof.
  intros H. unfold getTestNameFromMocha. now rewrite (walk_untitled _ H).
Qed.

Lemma getTestNameFromMocha_untitled_witness :
  getTestNameFromMocha
    (Some (runnable Undefined (Some (runnable (Str "") None))))
  = "".
Proof.
  apply (getTestNameFromMocha_untitled
           (runnable Undefined (Some (runnable (Str "") None)))).
  reflexivity.
Defined.

(** ** Reading properties *)

Lemma prop_empty (k : string) : prop ∅ k = Undefined.
Proof. unfold prop. now rewrite lookup_empty. Qed.

Lemma prop_insert (m : gmap string value) (k k' : string) (v : value) :
  prop (<[k := v]> m) k' = if decide (k = k') then v else prop m k'.
Proof. unfold prop. rewrite lookup_insert. now case_decide. Qed.

Lemma js_or_undefined (v : value) : js_or Undefined v = v.
Proof. reflexivity. Qed.

(** ** The command as a whole *)

Lemma acquire_stage_trackerURI (G : GlobalConfig) (opts : gmap string value)
    (href testName : value) :
  trackerURI (acquire_stage G opts href testName)
  = chomp (global_trackerURI G) "/".
Proof.
  unfold acquire_stage, new_A11yReporter. cbn [trackerURI from_option id].
  now rewrite prop_empty.
Qed.

Lemma report_stage_logged {Node : Type}
    (JSON_stringify : ReportPayload Node -> string)
    (reporter : Reporter) (result : ScanResult Node) :
  logs_of (fst (report_stage JSON_stringify reporter result))
  = map log_violation (violations result).
Proof.
  unfold report_stage. cbn [fst].
  rewrite logs_of_app, logs_of_transport.
  rewrite <- (map_map log_violation Cypress_log).
  apply logs_of_Cypress_log.
Qed.

(** X16. Given the scan result, a run of the command depends on its
    arguments through [opts.name] alone: the [context] argument, the page
    (whether from [opts.page] or the window's location) and every other
    option, [trackerURI], [revision], [project] and [key] among them, change
    neither what is sent or logged nor how the run ends. *)
Theorem reportA11y_reads_name_only {Node : Type}
    (JSON_stringify : ReportPayload Node -> string) (G : GlobalConfig)
    (context1 context2 : value) (opts1 opts2 : option (gmap string value))
    (href1 href2 testName : value) (result : ScanResult Node)
    (loaded : option XHR) :
  prop (default ∅ opts1) "name" = prop (default ∅ opts2) "name" ->
  reportA11y JSON_stringify G context1 opts1 href1 testName result loaded
  = reportA11y JSON_stringify G context2 opts2 href2 testName result loaded.
Proof.
  intros H. unfold reportA11y, acquire_stage, report_stage, report.
  now rewrite H.
Qed.

Lemma reportA11y_reads_name_only_witness :
  reportA11y (fun _ : ReportPayload unit => "{}") initial
    (Str "#main")
    (Some {["page" := Str "/login"; "trackerURI" := Str "https://x.example"]})
    (Str "http://localhost/") (Str "logs in") two_violations None
  = reportA11y (fun _ : ReportPayload unit => "{}") initial
      Undefined None (Str "http://localhost/other") (Str "logs in")
      two_violations None.
Proof.
  apply (reportA11y_reads_name_only (fun _ : ReportPayload unit => "{}")
           initial (Str "#main") Undefined
           (Some {["page" := Str "/login";
                   "trackerURI" := Str "https://x.example"]})
           None (Str "http://localhost/") (Str "http://localhost/other")
           (Str "logs in") two_violations None).
  reflexivity.
Defined.

(** X17. When the configured tracker URI chomps to a falsy value the
    command is a dry run whatever its options say: it warns with a payload
    filled from the global configuration, logs the violations, never
    touches the network or waits for a request, and ends in the assertion,
    which passes exactly when there is no violation. *)
Theorem reportA11y_dry_run {Node : Type}
    (JSON_stringify : ReportPayload Node -> string) (G : GlobalConfig)
    (context : value) (opts : option (gmap string value))
    (href testName : value) (result : ScanResult Node)
    (loaded : option XHR) :
  ToBoolean (chomp (global_trackerURI G) "/") = false ->
  let run :=
    reportA11y JSON_stringify G context opts href testName result loaded in
  fst run
  = transport
      (console_warn (text "a11y-tracker URI is blank. would have posted:"))
    :: transport
         (console_warn
            (object
               [("revision", Prim (global_revision G));
                ("scan_name",
                 Prim (js_or (prop (default ∅ opts) "name") testName));
                ("project_name", Prim (global_project G));
                ("key", Prim (global_key G));
                ("result", Result result)]))
    :: map (fun violation => Cypress_log (log_violation violation))
         (violations result)
  /\ snd run = ended (asserted (assert_stage result))
  /\ (snd run = ended (asserted passes) <-> violations result = []).
Proof.
  intros Hdry run.
  assert (Hrun : run
    = (transport
         (console_warn (text "a11y-tracker URI is blank. would have posted:"))
       :: transport
            (console_warn
               (object
                  [("revision", Prim (global_revision G));
                   ("scan_name",
                    Prim (js_or (prop (default ∅ opts) "name") testName));
                   ("project_name", Prim (global_project G));
                   ("key", Prim (global_key G));
                   ("result", Result result)]))
       :: map (fun violation => Cypress_log (log_violation violation))
            (violations result),
       ended (asserted (assert_stage result)))).
  { unfold run, reportA11y, report_stage, report, post.
    rewrite scanURI_truthy, acquire_stage_trackerURI, Hdry.
    unfold acquire_stage, new_A11yReporter.
    cbn [negb fst snd map app revision scanName project key from_option id].
    now rewrite !prop_empty, !js_or_undefined. }
  rewrite Hrun. cbn [fst snd]. split; [reflexivity |].
  split; [reflexivity |].
  unfold assert_stage. rewrite assert_equal_zero.
  destruct (violations result) as [|v vs]; cbn [length Nat.eqb].
  - now split.
  - split; discriminate.
Qed.

Lemma reportA11y_dry_run_witness :
  ToBoolean (chomp (global_trackerURI initial) "/") = false
  /\ snd (reportA11y (fun _ : ReportPayload unit => "{}") initial Undefined
            (Some {["trackerURI" := Str "https://api.example.com/"]})
            (Str "http://localhost/") (Str "logs in") two_violations None)
     = ended (asserted (assert_stage two_violations)).
Proof.
  split; [reflexivity |].
  apply (reportA11y_dry_run (fun _ : ReportPayload unit => "{}") initial
           Undefined
           (Some {["trackerURI" := Str "https://api.example.com/"]})
           (Str "http://localhost/") (Str "logs in") two_violations None).
  reflexivity.
Defined.

(** X18. When the configured tracker URI chomps to a truthy value the run
    waits for the request.  Once it has loaded, a status outside
    [200, 300) ends the run with the rejection and the assertion is never
    made, even for a result without violations; a status inside ends it in
    the assertion.  Either way every violation has been logged by then. *)
Theorem reportA11y_after_load {Node : Type}
    (JSON_stringify : ReportPayload Node -> string) (G : GlobalConfig)
    (context : value) (opts : option (gmap string value))
    (href testName : value) (result : ScanResult Node) (xhr : XHR) :
  ToBoolean (chomp (global_trackerURI G) "/") = true ->
  let run :=
    reportA11y JSON_stringify G context opts href testName result
      (Some xhr) in
  snd run
  = ended (if (200 <=? status xhr) && (status xhr <? 300)
           then asserted (assert_stage result)
           else report_rejected xhr)
  /\ logs_of (fst run) = map log_violation (violations result)
  /\ snd (reportA11y JSON_stringify G context opts href testName result None)
     = unsettled.
Proof.
  intros Hlive run.
  assert (Hpending : forall reporter,
            trackerURI reporter = chomp (global_trackerURI G) "/" ->
            snd (report_stage JSON_stringify reporter result)
            = Pending onload).
  { intros reporter Hr. unfold report_stage, report, post. cbn [snd].
    now rewrite scanURI_truthy, Hr, Hlive. }
  split; [| split].
  - unfold run, reportA11y. cbn [snd].
    rewrite Hpending by apply acquire_stage_trackerURI.
    destruct (Z.leb_spec 200 (status xhr)) as [Hlo | Hlo];
      [destruct (Z.ltb_spec (status xhr) 300) as [Hhi | Hhi] |];
      cbn [andb settle_stage].
    + now rewrite onload_2xx by lia.
    + now rewrite onload_other by lia.
    + now rewrite onload_other by lia.
  - unfold run, reportA11y. cbn [fst]. apply report_stage_logged.
  - unfold reportA11y. cbn [snd].
    now rewrite Hpending by apply acquire_stage_trackerURI.
Qed.

Lemma reportA11y_after_load_witness :
  let G :=
    configure initial {["trackerURI" := Str "https://api.example.com/"]} in
  let xhr := {| status := 503; responseText := "" |} in
  ToBoolean (chomp (global_trackerURI G) "/") = true
  /\ snd (reportA11y (fun _ : ReportPayload unit => "{}") G Undefined None
            (Str "http://localhost/") (Str "logs in")
            {| violations := [] |} (Some xhr))
     = ended (report_rejected xhr).
Proof.
  intros G xhr. split; [reflexivity |].
  apply (reportA11y_after_load (fun _ : ReportPayload unit => "{}") G
           Undefined None (Str "http://localhost/") (Str "logs in")
           {| violations := [] |} xhr).
  reflexivity.
Defined.

(** ** The reporter of [src/index.js] *)

Lemma index_js_configure_fields (G : IndexJsReporter.GlobalConfig)
    (opts : gmap string value) :
  IndexJsReporter.global_baseURI (IndexJsReporter.configure G opts)
  = js_or (prop opts "baseURI") (IndexJsReporter.global_baseURI G)
  /\ IndexJsReporter.global_runId (IndexJsReporter.configure G opts)
     = js_or (prop opts "runId") (IndexJsReporter.global_runId G).
Proof.
  unfold IndexJsReporter.configure, js_or.
  destruct (ToBoolean (prop opts "baseURI")),
    (ToBoolean (prop opts "runId")); now split.
Qed.

(** X19. The reporter of [src/index.js] does send the page: in a dry run,
    two of its reporters that differ in the page alone warn with different
    payloads, for every scan result. *)
Theorem index_js_report_sends_page {Node : Type}
    (JSON_stringify : ReportPayload Node -> string)
    (G : IndexJsReporter.GlobalConfig) (page1 page2 name : value)
    (opts : option (gmap string value)) (result : ScanResult Node) :
  page1 <> page2 ->
  ToBoolean
    (chomp (js_or (prop (default ∅ opts) "baseURI")
              (IndexJsReporter.global_baseURI G)) "/")
  = false ->
  fst (IndexJsReporter.report JSON_stringify
         (IndexJsReporter.new_A11yReporter G page1 name opts) result)
  <> fst (IndexJsReporter.report JSON_stringify
            (IndexJsReporter.new_A11yReporter G page2 name opts) result).
Proof.
  intros Hpage Hdry.
  unfold IndexJsReporter.report, post, IndexJsReporter.scanURI,
    IndexJsReporter.new_A11yReporter.
  cbn [IndexJsReporter.baseURI IndexJsReporter.page]. rewrite Hdry.
  cbn [negb ToBoolean fst]. intros H.
  injection H as H. now apply Hpage.
Qed.

Lemma index_js_report_sends_page_witness :
  let G :=
    {| IndexJsReporter.global_baseURI := Undefined;
       IndexJsReporter.global_runId := Str "abc" |} in
  fst (IndexJsReporter.report (fun _ : ReportPayload unit => "{}")
         (IndexJsReporter.new_A11yReporter G (Str "/login") (Str "logs in")
            None) two_violations)
  <> fst (IndexJsReporter.report (fun _ : ReportPayload unit => "{}")
            (IndexJsReporter.new_A11yReporter G (Str "/logout")
               (Str "logs in") None) two_violations).
Proof.
  intros G.
  apply (index_js_report_sends_page (fun _ : ReportPayload unit => "{}") G
           (Str "/login") (Str "/logout") (Str "logs in") None
           two_violations);
    [discriminate | reflexivity].
Defined.

(** X20. [setupCypress] of [src/index.js] settles the base URI by the
    first truthy one of the option, [A11Y_REPORTER_URI] and the value
    configured before, and the run id by the first truthy one of the
    option, [A11Y_REPORTER_RUN_ID], [GIT_HASH] and the value configured
    before. *)
Theorem index_js_setupCypress_precedence (G : IndexJsReporter.GlobalConfig)
    (globalOpts : option (gmap string value)) (env : gmap string value) :
  let o := default ∅ globalOpts in
  let G' := IndexJsReporter.setupCypress G globalOpts env in
  IndexJsReporter.global_baseURI G'
  = js_or (js_or (prop o "baseURI") (prop env "A11Y_REPORTER_URI"))
      (IndexJsReporter.global_baseURI G)
  /\ IndexJsReporter.global_runId G'
     = js_or (js_or (js_or (prop o "runId")
                       (prop env "A11Y_REPORTER_RUN_ID"))
                (prop env "GIT_HASH"))
         (IndexJsReporter.global_runId G).
Proof.
  intros o G'. unfold G', IndexJsReporter.setupCypress. fold o.
  match goal with
  | |- context [IndexJsReporter.configure G ?m] =>
      destruct (index_js_configure_fields G m) as (-> & ->)
  end.
  rewrite !prop_insert. cbn. now split.
Qed.

(** ** Pluralization beyond numbers *)

Lemma strict_eq_one_value (num : value) :
  strict_eq num (Num (Int 1)) = true <-> num = Num (Int 1).
Proof.
  destruct num as [| |b|[|z]|s]; simpl; try (split; discriminate).
  rewrite Z.eqb_eq. split; congruence.
Qed.

(** X21. Only the number 1 is singular: for any other first argument, the
    string "1" and [true] among them, [plural] on a string [single] returns
    the plural form, which is [multiple] when that is truthy and otherwise
    [single] followed by "s". *)
Theorem plural_strict (num : value) (single : string) (multiple : value) :
  num <> Num (Int 1) ->
  plural num (Str single) multiple
  = if ToBoolean multiple then multiple else Str (single +:+ "s").
Proof.
  intros H. unfold plural.
  destruct (strict_eq num (Num (Int 1))) eqn:E.
  - now apply strict_eq_one_value in E.
  - now destruct (ToBoolean multiple).
Qed.

Lemma plural_strict_witness :
  plural (Str "1") (Str "violation") Undefined = Str "violations"
  /\ plural (Bool true) (Str "was") (Str "were") = Str "were".
Proof.
  split.
  - apply (plural_strict (Str "1") "violation" Undefined). discriminate.
  - apply (plural_strict (Bool true) "was" (Str "were")). discriminate.
Defined.
